(** * ChromeCam Studio: the renderer verification script

    A shallow embedding of [verification/verify_renderer.py], the smoke test
    that drives a headless browser through Playwright's synchronous API, and
    the properties of its single function [run].

    The script is a straight line of library calls inside
    [with ... : try ... except Exception ... finally ...].  What the library
    and the target application do is not part of the repository, so the
    embedding takes it as a parameter: an environment answers every library
    call, and every [print], with "returned" or "raised e", and may look at
    everything that happened before.  [run] then is a program in a state-and-exception monad
    whose state is the log of the interactions so far. *)

From Stdlib Require Import List String ZArith Bool Arith Lia.
Import ListNotations.
Open Scope string_scope.
Open Scope list_scope.

(** ** Exceptions *)

Module Exn.

(** The exception classes that matter to [except Exception]: Playwright's
    [Error] and its subclass [TimeoutError], the builtin [AssertionError]
    (raised by [expect]) and [OSError] all derive from [Exception];
    [KeyboardInterrupt], [SystemExit] and [GeneratorExit] derive from
    [BaseException] only. *)
Inductive cls : Type :=
| PlaywrightError
| TimeoutError
| AssertionError
| OSError
| KeyboardInterrupt
| SystemExit
| GeneratorExit.

Record t : Type := mk { class : cls; message : string }.

(** [isinstance(e, Exception)] *)
Definition is_Exception (e : t) : bool :=
  match class e with
  | PlaywrightError | TimeoutError | AssertionError | OSError => true
  | KeyboardInterrupt | SystemExit | GeneratorExit => false
  end.

(** [str(e)], as interpolated by the f-string of the handler. *)
Definition str (e : t) : string := message e.

End Exn.

(** ** Library calls and the interaction log *)

(** One constructor per call the script makes, with the arguments the call
    site passes.  Keyword arguments the script may leave out are options. *)
Inductive Call : Type :=
| SyncPlaywrightEnter                               (* with sync_playwright() as p: *)
| ChromiumLaunch (headless : bool) (args : list string)
| BrowserNewPage
| PageGoto (url : string)
| ExpectToHaveTitle (expected : string)
| PageWaitForSelector (selector : string) (timeout : Z)
| PageWaitForTimeout (ms : Z)
| PageScreenshot (path : string) (full_page : option bool)
| BrowserClose
| SyncPlaywrightExit                                (* leaving the with block *)
| BuiltinPrint (line : string).                     (* print(line) *)

Inductive Outcome : Type :=
| Returned
| Raised (e : Exn.t).

Inductive Event : Type :=
| EvCall (c : Call) (o : Outcome).

(** The log, oldest event first. *)
Definition Log : Type := list Event.

(** The environment: the automation library, the browser, the target
    application, the file system and standard output, seen from the
    script. *)
Definition Env : Type := Log -> Call -> Outcome.

(** ** The monad of the script *)

Inductive Result (A : Type) : Type :=
| Ok (a : A)
| Raise (e : Exn.t).
Arguments Ok {A} a.
Arguments Raise {A} e.

Definition M (A : Type) : Type := Log -> Result A * Log.

Definition ret {A} (a : A) : M A := fun l => (Ok a, l).

Definition bind {A B} (m : M A) (k : A -> M B) : M B :=
  fun l =>
    match m l with
    | (Ok a, l') => k a l'
    | (Raise e, l') => (Raise e, l')
    end.

Declare Scope py_scope.
Delimit Scope py_scope with py.
Notation "x <- m ;; k" := (bind m (fun x => k))
  (at level 100, m at next level, right associativity) : py_scope.
Notation "m ;; k" := (bind m (fun _ => k))
  (at level 100, right associativity) : py_scope.
Open Scope py_scope.

(** ** The script *)

Definition launch_args : list string :=
  ["--use-fake-ui-for-media-stream"; "--use-fake-device-for-media-stream"].

Definition app_url : string := "http://localhost:3002/".
Definition app_title : string := "ChromeCam Studio".
Definition running_png : string := "verification/running.png".
Definition error_png : string := "verification/error.png".

Section Script.

Variable env : Env.

(** A library call: ask the environment, log the answer. *)
Definition call (c : Call) : M unit :=
  fun l =>
    match env l c with
    | Returned => (Ok tt, l ++ [EvCall c Returned])
    | Raised e => (Raise e, l ++ [EvCall c (Raised e)])
    end.

(** [print(s)]: a line on standard output.  Like any call it can raise: an
    [OSError] when standard output is closed or its pipe is broken, an
    encoding error on a message the stream cannot encode; all of these are
    [Exception]s, and a [KeyboardInterrupt] can arrive here as anywhere. *)
Definition print (s : string) : M unit := call (BuiltinPrint s).

(** [try: body / except Exception as e: handler e / finally: fin].
    The handler runs only for instances of [Exception]; [fin] runs on every
    way out, and an exception it raises replaces whatever was under way. *)
Definition try_except_finally
    (body : M unit) (handler : Exn.t -> M unit) (fin : M unit) : M unit :=
  fun l =>
    let '(r, l1) :=
      match body l with
      | (Ok tt, l') => (Ok tt, l')
      | (Raise e, l') =>
          if Exn.is_Exception e then handler e l' else (Raise e, l')
      end in
    match fin l1 with
    | (Ok tt, l2) => (r, l2)
    | (Raise e', l2) => (Raise e', l2)
    end.

(** [with cm as p: body], for a context manager whose [__exit__] returns
    [None] (it never swallows the exception), as [sync_playwright()]'s
    does.  When [__enter__] raises, [__exit__] is not called. *)
Definition with_ (enter exit : M unit) (body : M unit) : M unit :=
  fun l =>
    match enter l with
    | (Raise e, l') => (Raise e, l')
    | (Ok tt, l0) =>
        let '(r, l1) := body l0 in
        match exit l1 with
        | (Ok tt, l2) => (r, l2)
        | (Raise e', l2) => (Raise e', l2)
        end
    end.

(** The body of the [try]. *)
Definition steps : M unit :=
  print "Navigating to app..." ;;
  call (PageGoto app_url) ;;
  print "Waiting for title..." ;;
  call (ExpectToHaveTitle app_title) ;;
  print "Waiting for video element..." ;;
  call (PageWaitForSelector "video" 10000) ;;
  print "Waiting for render loop..." ;;
  call (PageWaitForTimeout 3000) ;;
  call (PageScreenshot running_png None) ;;
  print "Running screenshot taken".

(** The [except Exception as e] clause. *)
Definition on_error (e : Exn.t) : M unit :=
  print ("Error: " ++ Exn.str e)%string ;;
  call (PageScreenshot error_png None).

(** [def run()] *)
Definition run : M unit :=
  with_ (call SyncPlaywrightEnter) (call SyncPlaywrightExit)
    (call (ChromiumLaunch true launch_args) ;;
     call BrowserNewPage ;;
     try_except_finally steps on_error (call BrowserClose)).

(** [if __name__ == "__main__": run()], from a fresh process. *)
Definition main : Result unit * Log := run [].

Definition result : Result unit := fst main.
Definition log : Log := snd main.

End Script.

(** ** What a run leaves behind, read off its log *)

(** The image files on disk: a screenshot call that returned has written its
    path; one that raised has not. *)
Fixpoint files_written (l : Log) : list string :=
  match l with
  | [] => []
  | EvCall (PageScreenshot p _) Returned :: l' => p :: files_written l'
  | _ :: l' => files_written l'
  end.

(** Browser sessions started: launch calls that returned a browser. *)
Fixpoint sessions_launched (l : Log) : nat :=
  match l with
  | [] => 0
  | EvCall (ChromiumLaunch _ _) Returned :: l' => S (sessions_launched l')
  | _ :: l' => sessions_launched l'
  end.

(** How many times [browser.close()] was reached. *)
Fixpoint close_calls (l : Log) : nat :=
  match l with
  | [] => 0
  | EvCall BrowserClose _ :: l' => S (close_calls l')
  | _ :: l' => close_calls l'
  end.

(** The operations on the page, prints and session management left out. *)
Definition is_page_call (c : Call) : bool :=
  match c with
  | PageGoto _ | ExpectToHaveTitle _ | PageWaitForSelector _ _
  | PageWaitForTimeout _ | PageScreenshot _ _ => true
  | _ => false
  end.

Fixpoint page_events (l : Log) : list (Call * Outcome) :=
  match l with
  | [] => []
  | EvCall c o :: l' =>
      if is_page_call c then (c, o) :: page_events l' else page_events l'
  end.

Fixpoint screenshot_calls (l : Log) : list string :=
  match l with
  | [] => []
  | EvCall (PageScreenshot p _) _ :: l' => p :: screenshot_calls l'
  | _ :: l' => screenshot_calls l'
  end.

(** The library calls of the [try] block, in program order. *)
Definition try_calls : list Call :=
  [ PageGoto app_url;
    ExpectToHaveTitle app_title;
    PageWaitForSelector "video" 10000;
    PageWaitForTimeout 3000;
    PageScreenshot running_png None ].

(** ** Environments used as concrete inputs *)

(** Everything works. *)
Definition healthy : Env := fun _ _ => Returned.

(** No browser binary: [launch] raises Playwright's [Error]. *)
Definition no_browser_exn : Exn.t :=
  Exn.mk Exn.PlaywrightError "Executable doesn't exist".
Definition env_no_browser : Env :=
  fun _ c =>
    match c with
    | ChromiumLaunch _ _ => Raised no_browser_exn
    | _ => Returned
    end.

(** The browser starts but dies before a page can be opened. *)
Definition no_page_exn : Exn.t :=
  Exn.mk Exn.PlaywrightError "Target page, context or browser has been closed".
Definition env_no_page : Env :=
  fun _ c =>
    match c with
    | BrowserNewPage => Raised no_page_exn
    | _ => Returned
    end.

(** Nothing listens on port 3002. *)
Definition refused_exn : Exn.t :=
  Exn.mk Exn.PlaywrightError "net::ERR_CONNECTION_REFUSED".
Definition env_refused : Env :=
  fun _ c =>
    match c with
    | PageGoto _ => Raised refused_exn
    | _ => Returned
    end.

(** Ctrl-C while the script waits for the video element. *)
Definition interrupt_exn : Exn.t := Exn.mk Exn.KeyboardInterrupt "".
Definition env_interrupted : Env :=
  fun _ c =>
    match c with
    | PageWaitForSelector _ _ => Raised interrupt_exn
    | _ => Returned
    end.

(** A browser that crashes during navigation: the navigation raises, and so
    does every later screenshot. *)
Definition crashed_exn : Exn.t :=
  Exn.mk Exn.PlaywrightError "Target crashed".
Definition env_crashed : Env :=
  fun _ c =>
    match c with
    | PageGoto _ | PageScreenshot _ _ => Raised crashed_exn
    | _ => Returned
    end.

(** Standard output is a pipe whose reader goes away: writing the line
    [broken] raises BrokenPipeError, an [OSError]; every other call
    returns. *)
Definition broken_pipe_exn : Exn.t :=
  Exn.mk Exn.OSError "[Errno 32] Broken pipe".
Definition env_pipe_breaks_at (broken : string) : Env :=
  fun _ c =>
    match c with
    | BuiltinPrint s =>
        if String.eqb s broken then Raised broken_pipe_exn else Returned
    | _ => Returned
    end.

(** The title is wrong, and the line that reports it cannot be written. *)
Definition wrong_title_exn : Exn.t :=
  Exn.mk Exn.AssertionError "Page title expected to be 'ChromeCam Studio'".
Definition env_unreported : Env :=
  fun _ c =>
    match c with
    | ExpectToHaveTitle _ => Raised wrong_title_exn
    | BuiltinPrint s =>
        if String.eqb s ("Error: " ++ Exn.str wrong_title_exn)%string
        then Raised broken_pipe_exn else Returned
    | _ => Returned
    end.

(** ** The shape of a run *)

Definition to_result (o : Outcome) : Result unit :=
  match o with
  | Returned => Ok tt
  | Raised e => Raise e
  end.

(** What reaches the caller when a cleanup call ([finally], [__exit__]) with
    outcome [o] follows a block that ended in [r]. *)
Definition after_cleanup (r : Result unit) (o : Outcome) : Result unit :=
  match o with
  | Returned => r
  | Raised e => Raise e
  end.

(** The events of a [try] block in which every call returns. *)
Definition try_events : Log :=
  [ EvCall (BuiltinPrint "Navigating to app...") Returned;
    EvCall (PageGoto app_url) Returned;
    EvCall (BuiltinPrint "Waiting for title...") Returned;
    EvCall (ExpectToHaveTitle app_title) Returned;
    EvCall (BuiltinPrint "Waiting for video element...") Returned;
    EvCall (PageWaitForSelector "video" 10000) Returned;
    EvCall (BuiltinPrint "Waiting for render loop...") Returned;
    EvCall (PageWaitForTimeout 3000) Returned;
    EvCall (PageScreenshot running_png None) Returned;
    EvCall (BuiltinPrint "Running screenshot taken") Returned ].

(** The events before the [try], when the browser and the page are there. *)
Definition setup_events : Log :=
  [ EvCall SyncPlaywrightEnter Returned;
    EvCall (ChromiumLaunch true launch_args) Returned;
    EvCall BrowserNewPage Returned ].

(** Every run of the script has one of seven shapes.  [k] is the position in
    [try_events] of the call, a step or a [print], that raised. *)
Inductive Shape : Result unit -> Log -> Prop :=
| no_playwright e :
    Shape (Raise e) [EvCall SyncPlaywrightEnter (Raised e)]
| no_browser e x :
    Shape (after_cleanup (Raise e) x)
      [ EvCall SyncPlaywrightEnter Returned;
        EvCall (ChromiumLaunch true launch_args) (Raised e);
        EvCall SyncPlaywrightExit x ]
| no_page e x :
    Shape (after_cleanup (Raise e) x)
      [ EvCall SyncPlaywrightEnter Returned;
        EvCall (ChromiumLaunch true launch_args) Returned;
        EvCall BrowserNewPage (Raised e);
        EvCall SyncPlaywrightExit x ]
| passed cl x :
    Shape (after_cleanup (after_cleanup (Ok tt) cl) x)
      (setup_events ++ try_events ++
       [EvCall BrowserClose cl; EvCall SyncPlaywrightExit x])
| caught k c e shot cl x :
    nth_error try_events k = Some (EvCall c Returned) ->
    Exn.is_Exception e = true ->
    Shape (after_cleanup (after_cleanup (to_result shot) cl) x)
      (setup_events ++ firstn k try_events ++
       [ EvCall c (Raised e);
         EvCall (BuiltinPrint ("Error: " ++ Exn.str e)%string) Returned;
         EvCall (PageScreenshot error_png None) shot;
         EvCall BrowserClose cl;
         EvCall SyncPlaywrightExit x ])
| caught_unreported k c e e' cl x :
    nth_error try_events k = Some (EvCall c Returned) ->
    Exn.is_Exception e = true ->
    Shape (after_cleanup (after_cleanup (Raise e') cl) x)
      (setup_events ++ firstn k try_events ++
       [ EvCall c (Raised e);
         EvCall (BuiltinPrint ("Error: " ++ Exn.str e)%string) (Raised e');
         EvCall BrowserClose cl;
         EvCall SyncPlaywrightExit x ])
| uncaught k c e cl x :
    nth_error try_events k = Some (EvCall c Returned) ->
    Exn.is_Exception e = false ->
    Shape (after_cleanup (after_cleanup (Raise e) cl) x)
      (setup_events ++ firstn k try_events ++
       [ EvCall c (Raised e);
         EvCall BrowserClose cl;
         EvCall SyncPlaywrightExit x ]).

(** ** Screenshot modes *)

(** [Page.screenshot] takes an optional keyword [full_page]; when the caller
    leaves it out the library's default decides between the whole scrollable
    page and the visible viewport. *)
Definition captures_full_page (library_default : bool) (c : Call) : bool :=
  match c with
  | PageScreenshot _ (Some b) => b
  | PageScreenshot _ None => library_default
  | _ => false
  end.

(** Playwright documents [full_page] as defaulting to [False]: the capture is
    clipped to the viewport.  The constant belongs to the library, not to the
    repository. *)
Definition playwright_full_page_default : bool := false.

(** The files written, each with whether it shows the full page. *)
Fixpoint screenshots_taken (library_default : bool) (l : Log)
  : list (string * bool) :=
  match l with
  | [] => []
  | EvCall (PageScreenshot p fp) Returned :: l' =>
      (p, captures_full_page library_default (PageScreenshot p fp))
        :: screenshots_taken library_default l'
  | _ :: l' => screenshots_taken library_default l'
  end.

(** ** The collaborators, as the specification describes them *)

(** Modelled from the spec: the target application, which the repository
    only reaches over HTTP.  It is reachable or not, has a title, and for
    each selector renders a first matching element some milliseconds after
    load, or never. *)
Record Target : Type := {
  reachable : bool;
  title : string;
  appears : string -> option Z
}.

(** Modelled from the spec: the browser-automation library (Playwright), of
    which the repository holds only the calls.  Navigation fails when the
    target is unreachable; the title assertion fails with an AssertionError
    unless the title is exactly the expected string; the selector wait fails
    with a TimeoutError unless a matching element appears within the bound;
    launch, page creation, the fixed delay, the screenshot and the shutdown
    are capabilities that work. *)
Definition playwright (t : Target) : Env :=
  fun _ c =>
    match c with
    | PageGoto _ =>
        if reachable t then Returned
        else Raised (Exn.mk Exn.PlaywrightError "net::ERR_CONNECTION_REFUSED")
    | ExpectToHaveTitle expected =>
        if String.eqb (title t) expected then Returned
        else Raised (Exn.mk Exn.AssertionError "Page title expected to be")
    | PageWaitForSelector selector bound =>
        match appears t selector with
        | Some d =>
            if (d <=? bound)%Z then Returned
            else Raised (Exn.mk Exn.TimeoutError "Timeout exceeded")
        | None => Raised (Exn.mk Exn.TimeoutError "Timeout exceeded")
        end
    | _ => Returned
    end.

Definition other_app : Target :=
  {| reachable := true; title := "Other App"; appears := fun _ => Some 0%Z |}.

Definition no_video_app : Target :=
  {| reachable := true; title := "ChromeCam Studio"; appears := fun _ => None |}.

(** ** Further observations on a log *)

(** The lines written to standard output, in order: the prints that
    returned. *)
Fixpoint stdout (l : Log) : list string :=
  match l with
  | [] => []
  | EvCall (BuiltinPrint s) Returned :: l' => s :: stdout l'
  | _ :: l' => stdout l'
  end.

(** The library calls made, in order, whatever their outcome; the prints
    are left out. *)
Fixpoint calls_made (l : Log) : list Call :=
  match l with
  | [] => []
  | EvCall (BuiltinPrint _) _ :: l' => calls_made l'
  | EvCall c _ :: l' => c :: calls_made l'
  end.

(** The most recent call that raised, with what it raised. *)
Fixpoint last_raised (l : Log) : option (Call * Exn.t) :=
  match l with
  | [] => None
  | EvCall c (Raised e) :: l' =>
      match last_raised l' with
      | Some later => Some later
      | None => Some (c, e)
      end
  | _ :: l' => last_raised l'
  end.

(** The calls made before the [try] is entered. *)
Definition setup_calls : list Call :=
  [ SyncPlaywrightEnter; ChromiumLaunch true launch_args; BrowserNewPage ].

(** Every call site of [run], in program order. *)
Definition script_calls : list Call :=
  setup_calls ++ try_calls ++
  [ PageScreenshot error_png None; BrowserClose; SyncPlaywrightExit ].

(** The progress lines printed ahead of the steps. *)
Definition progress_lines : list string :=
  [ "Navigating to app...";
    "Waiting for title...";
    "Waiting for video element...";
    "Waiting for render loop..." ].

(** Everything the [try] block calls, the prints included, in program
    order. *)
Definition try_block_calls : list Call :=
  [ BuiltinPrint "Navigating to app...";
    PageGoto app_url;
    BuiltinPrint "Waiting for title...";
    ExpectToHaveTitle app_title;
    BuiltinPrint "Waiting for video element...";
    PageWaitForSelector "video" 10000;
    BuiltinPrint "Waiting for render loop...";
    PageWaitForTimeout 3000;
    PageScreenshot running_png None;
    BuiltinPrint "Running screenshot taken" ].

(** A browser that never dies under the script: only the three steps that
    look at the target may raise, and what they raise is an [Exception]. *)
Definition looks_at_target (c : Call) : bool :=
  match c with
  | PageGoto _ | ExpectToHaveTitle _ | PageWaitForSelector _ _ => true
  | _ => false
  end.

(** Every outcome in the log is an answer the environment gave. *)
Definition answered (env : Env) (l : Log) : Prop :=
  forall c o, In (EvCall c o) l -> exists l', env l' c = o.

Definition keeps_answered (env : Env) (m : M unit) : Prop :=
  forall l, answered env l -> answered env (snd (m l)).

(** ** Proof tools *)

(** Follow the script call by call, splitting on what the environment
    answers and on the class of what was raised. *)
Ltac ask_env :=
  match goal with
  | |- context [match ?env ?l ?c with Returned => _ | Raised _ => _ end] =>
      destruct (env l c); cbn [app]
  | |- context [if Exn.is_Exception ?e then _ else _] =>
      destruct (Exn.is_Exception e) eqn:?
  end.

(** Decide membership of an event in an explicit log. *)
Ltac in_log :=
  cbn [In]; repeat first [left; reflexivity | right].

Ltac not_in_log H :=
  unfold try_calls in H; cbn [In append] in H;
  repeat match type of H with
         | _ \/ _ => destruct H as [H | H]
         | False => destruct H
         | _ = _ => first [discriminate H | congruence]
         end.

(** From [In ev log] on an explicit log: one goal per event of the log that
    can be [ev], with the equation inverted. *)
Ltac pick_event H :=
  cbn [In append] in H;
  repeat match type of H with
         | _ \/ _ => destruct H as [H | H]
         end;
  try match type of H with
      | False => destruct H
      | _ = _ => first [discriminate H | inversion H; subst; clear H]
      end.

Ltac stop_at k :=
  exists k; do 2 eexists;
  split; [reflexivity | cbn [firstn try_events app]; reflexivity].

Section Shapes.

Variable env : Env.

Lemma call_eq (c : Call) (l : Log) :
  call env c l = (to_result (env l c), l ++ [EvCall c (env l c)]).
Proof. unfold call; now destruct (env l c). Qed.

(** The [try] block either runs to its end or stops at the first call, step
    or print, that raises. *)
Lemma steps_shape (l : Log) :
  steps env l = (Ok tt, l ++ try_events) \/
  exists k c e,
    nth_error try_events k = Some (EvCall c Returned) /\
    steps env l = (Raise e, l ++ firstn k try_events ++ [EvCall c (Raised e)]).
Proof.
  unfold steps, bind, print, call.
  repeat ask_env; repeat rewrite <- app_assoc; cbn [app].
  1: now left.
  all: right;
    first [ stop_at 0 | stop_at 1 | stop_at 2 | stop_at 3 | stop_at 4
          | stop_at 5 | stop_at 6 | stop_at 7 | stop_at 8 | stop_at 9 ].
Qed.

(** The handler: the error line, then the screenshot if the line went out. *)
Lemma on_error_shape (e : Exn.t) (l : Log) :
  (exists shot,
     on_error env e l =
     (to_result shot,
      l ++ [ EvCall (BuiltinPrint ("Error: " ++ Exn.str e)%string) Returned;
             EvCall (PageScreenshot error_png None) shot ])) \/
  (exists e',
     on_error env e l =
     (Raise e',
      l ++ [EvCall (BuiltinPrint ("Error: " ++ Exn.str e)%string) (Raised e')])).
Proof.
  unfold on_error, bind, print, call.
  destruct (env l _) as [ | e'].
  - left.
    match goal with
    | |- context [env ?l1 (PageScreenshot error_png None)] =>
        exists (env l1 (PageScreenshot error_png None));
        destruct (env l1 (PageScreenshot error_png None))
    end; rewrite <- app_assoc; reflexivity.
  - right. now exists e'.
Qed.

(** [finally]: the cleanup call is the last event, whatever came before. *)
Lemma try_except_finally_eq (body : M unit) (handler : Exn.t -> M unit)
      (c : Call) (l : Log) :
  exists r l1,
    (body l = (Ok tt, l1) /\ r = Ok tt \/
     (exists e l', body l = (Raise e, l') /\
        (Exn.is_Exception e = true /\ handler e l' = (r, l1) \/
         Exn.is_Exception e = false /\ r = Raise e /\ l1 = l'))) /\
    try_except_finally body handler (call env c) l =
    (after_cleanup r (env l1 c), l1 ++ [EvCall c (env l1 c)]).
Proof.
  unfold try_except_finally.
  destruct (body l) as [[[] | e] l'] eqn:Hb.
  - exists (Ok tt), l'. split; [now left | ].
    rewrite call_eq. now destruct (env l' c).
  - destruct (Exn.is_Exception e) eqn:He.
    + destruct (handler e l') as [r l1] eqn:Hh.
      exists r, l1. split.
      * right. exists e, l'. split; [reflexivity | left; now split].
      * rewrite call_eq. now destruct (env l1 c).
    + exists (Raise e), l'. split.
      * right. exists e, l'. split; [reflexivity | right; now repeat split].
      * rewrite call_eq. now destruct (env l' c).
Qed.

(** [with]: once entered, the exit call is the last event. *)
Lemma with_eq (c_in c_out : Call) (body : M unit) (l : Log) :
  with_ (call env c_in) (call env c_out) body l =
  match env l c_in with
  | Raised e => (Raise e, l ++ [EvCall c_in (Raised e)])
  | Returned =>
      let '(r, l1) := body (l ++ [EvCall c_in Returned]) in
      (after_cleanup r (env l1 c_out), l1 ++ [EvCall c_out (env l1 c_out)])
  end.
Proof.
  unfold with_. rewrite call_eq.
  destruct (env l c_in); cbn [to_result]; [ | reflexivity ].
  destruct (body _) as [r l1]. rewrite call_eq.
  now destruct (env l1 c_out).
Qed.

Lemma main_shape : exists r l, main env = (r, l) /\ Shape r l.
Proof.
  unfold main, run. rewrite with_eq. cbn [app].
  destruct (env [] SyncPlaywrightEnter) as [ | e0].
  2: { do 2 eexists; split; [reflexivity | constructor]. }
  unfold bind. rewrite call_eq. cbn [app].
  destruct (env _ (ChromiumLaunch true launch_args)) as [ | e1];
    cbn [to_result].
  2: { do 2 eexists; split; [reflexivity | apply no_browser]. }
  rewrite call_eq. cbn [app].
  destruct (env _ BrowserNewPage) as [ | e1]; cbn [to_result].
  2: { do 2 eexists; split; [reflexivity | apply no_page]. }
  fold setup_events.
  destruct (try_except_finally_eq (steps env) (on_error env) BrowserClose
              setup_events) as (r & l1 & Hbody & ->).
  do 2 eexists; split; [reflexivity | ].
  rewrite <- app_assoc. cbn [app].
  generalize (env l1 BrowserClose); intros cl.
  generalize (env (l1 ++ [EvCall BrowserClose cl]) SyncPlaywrightExit);
    intros x.
  destruct (steps_shape setup_events) as [Hs | (k & c & e & Hk & Hs)];
    rewrite Hs in Hbody.
  - destruct Hbody as [[Hb ->] | (e & l' & Hb & _)]; [ | discriminate Hb].
    assert (l1 = setup_events ++ try_events) as -> by congruence.
    rewrite <- app_assoc. apply passed.
  - destruct Hbody as [[Hb _] | (e' & l' & Hb & Hh)]; [discriminate Hb | ].
    assert (e' = e) as -> by congruence.
    assert (l' = setup_events ++ firstn k try_events ++ [EvCall c (Raised e)])
      as -> by congruence.
    destruct Hh as [[He Hh] | (He & -> & ->)].
    + destruct (on_error_shape e
                  (setup_events ++ firstn k try_events ++ [EvCall c (Raised e)]))
        as [(shot & Ho) | (e2 & Ho)]; rewrite Ho in Hh.
      * assert (r = to_result shot) as -> by congruence.
        assert (l1 = (setup_events ++ firstn k try_events ++
                        [EvCall c (Raised e)]) ++
                     [ EvCall (BuiltinPrint ("Error: " ++ Exn.str e)%string)
                         Returned;
                       EvCall (PageScreenshot error_png None) shot ])
          as -> by congruence.
        repeat rewrite <- app_assoc. cbn [app].
        now apply caught.
      * assert (r = Raise e2) as -> by congruence.
        assert (l1 = (setup_events ++ firstn k try_events ++
                        [EvCall c (Raised e)]) ++
                     [ EvCall (BuiltinPrint ("Error: " ++ Exn.str e)%string)
                         (Raised e2) ])
          as -> by congruence.
        repeat rewrite <- app_assoc. cbn [app].
        now apply caught_unreported.
    + repeat rewrite <- app_assoc. cbn [app].
      now apply uncaught.
Qed.

Theorem run_shape : Shape (result env) (log env).
Proof.
  unfold result, log.
  destruct main_shape as (r & l & -> & H). exact H.
Qed.

End Shapes.

(** Every position of [try_events] holds a call of the [try] block. *)
Lemma try_call_positions (k : nat) (c : Call) :
  nth_error try_events k = Some (EvCall c Returned) ->
  k = 0 /\ c = BuiltinPrint "Navigating to app..." \/
  k = 1 /\ c = PageGoto app_url \/
  k = 2 /\ c = BuiltinPrint "Waiting for title..." \/
  k = 3 /\ c = ExpectToHaveTitle app_title \/
  k = 4 /\ c = BuiltinPrint "Waiting for video element..." \/
  k = 5 /\ c = PageWaitForSelector "video" 10000 \/
  k = 6 /\ c = BuiltinPrint "Waiting for render loop..." \/
  k = 7 /\ c = PageWaitForTimeout 3000 \/
  k = 8 /\ c = PageScreenshot running_png None \/
  k = 9 /\ c = BuiltinPrint "Running screenshot taken".
Proof.
  intros H.
  destruct k as [|[|[|[|[|[|[|[|[|[|k]]]]]]]]]]; cbn in H;
    try (injection H as <-; tauto).
  destruct k; discriminate H.
Qed.

Ltac positions H :=
  apply try_call_positions in H;
  destruct H as [[-> ->] | [[-> ->] | [[-> ->] | [[-> ->] | [[-> ->]
               | [[-> ->] | [[-> ->] | [[-> ->] | [[-> ->] | [-> ->]]]]]]]]]].

(** Case analysis on the shape of the run of [env], down to explicit logs. *)
Ltac by_shape env :=
  let Hk := fresh "Hk" in
  let He := fresh "Hcls" in
  destruct (run_shape env)
    as [ ex | ex x | ex x | cl x | k cc ex shot cl x Hk He
       | k cc ex ex' cl x Hk He | k cc ex cl x Hk He ];
  [ | | | | positions Hk | positions Hk | positions Hk ];
  unfold setup_events, try_events; cbn [firstn app].

Ltac split_outcomes :=
  repeat match goal with s : Outcome |- _ => destruct s end.

Ltac in_try := unfold try_calls; in_log.

(** ** C1: the healthy run *)

(** C1, as stated, fails when the closing [print] raises: it is inside the
    [try], after the screenshot, so with a broken pipe on standard output at
    that line all five steps return, running.png is written, and the handler
    then writes error.png as well. *)
Lemma closing_print_failure_writes_both :
  In (EvCall (PageGoto "http://localhost:3002/") Returned)
     (log (env_pipe_breaks_at "Running screenshot taken")) /\
  In (EvCall (ExpectToHaveTitle "ChromeCam Studio") Returned)
     (log (env_pipe_breaks_at "Running screenshot taken")) /\
  In (EvCall (PageWaitForSelector "video" 10000) Returned)
     (log (env_pipe_breaks_at "Running screenshot taken")) /\
  In (EvCall (PageWaitForTimeout 3000) Returned)
     (log (env_pipe_breaks_at "Running screenshot taken")) /\
  In (EvCall (PageScreenshot "verification/running.png" None) Returned)
     (log (env_pipe_breaks_at "Running screenshot taken")) /\
  files_written (log (env_pipe_breaks_at "Running screenshot taken")) =
    ["verification/running.png"; "verification/error.png"].
Proof. cbv. tauto. Qed.

(** C1, amended.  In every run in which navigation to
    http://localhost:3002/, the title assertion, the wait for the video
    selector, the fixed delay and the screenshot capture all return, and the
    closing line "Running screenshot taken" is then printed, the script writes
    verification/running.png and does not write verification/error.png;
    running.png is the only file it writes. *)
Theorem healthy_run_writes_running_png (env : Env) :
  In (EvCall (PageGoto "http://localhost:3002/") Returned) (log env) ->
  In (EvCall (ExpectToHaveTitle "ChromeCam Studio") Returned) (log env) ->
  In (EvCall (PageWaitForSelector "video" 10000) Returned) (log env) ->
  In (EvCall (PageWaitForTimeout 3000) Returned) (log env) ->
  In (EvCall (PageScreenshot "verification/running.png" None) Returned) (log env) ->
  In (EvCall (BuiltinPrint "Running screenshot taken") Returned) (log env) ->
  In "verification/running.png" (files_written (log env)) /\
  ~ In "verification/error.png" (files_written (log env)) /\
  files_written (log env) = ["verification/running.png"].
Proof.
  by_shape env; intros _ _ _ _ _ H; try (exfalso; not_in_log H; fail).
  cbn. split; [now left | split; [ | reflexivity ]].
  intros [K | []]; discriminate K.
Qed.

Lemma healthy_run_writes_running_png_witness :
  In "verification/running.png" (files_written (log healthy)) /\
  ~ In "verification/error.png" (files_written (log healthy)) /\
  files_written (log healthy) = ["verification/running.png"].
Proof.
  apply (healthy_run_writes_running_png healthy); cbv; tauto.
Defined.

(** ** C2: failures and the error screenshot *)

(** C2, as stated, fails when the browser cannot be launched: the launch is
    outside the [try], nothing is captured and the exception reaches the
    caller. *)
Lemma launch_failure_is_not_captured :
  In (EvCall (ChromiumLaunch true launch_args) (Raised no_browser_exn))
     (log env_no_browser) /\
  screenshot_calls (log env_no_browser) = [] /\
  files_written (log env_no_browser) = [] /\
  result env_no_browser = Raise no_browser_exn.
Proof.
  cbv. repeat split. now right; left.
Qed.

(** C2, amended.  For every Exception-class failure raised by a step of the
    [try] block (navigation, title assertion, selector wait, fixed delay,
    success screenshot), the handler first prints "Error: <message>"; once
    that line is out it issues the screenshot call for verification/error.png.
    The failure is not re-raised: when that screenshot returns, error.png is
    the one file written, and when moreover [browser.close()] and the exit of
    the Playwright context return, [run] returns normally to its caller. *)
Theorem step_failure_is_captured (env : Env) (c : Call) (e : Exn.t) :
  In c try_calls ->
  In (EvCall c (Raised e)) (log env) ->
  Exn.is_Exception e = true ->
  (exists o, In (EvCall (BuiltinPrint ("Error: " ++ Exn.str e)%string) o)
                (log env)) /\
  (In (EvCall (BuiltinPrint ("Error: " ++ Exn.str e)%string) Returned)
      (log env) ->
   exists o, In (EvCall (PageScreenshot "verification/error.png" None) o)
                (log env)) /\
  (In (EvCall (PageScreenshot "verification/error.png" None) Returned) (log env) ->
   files_written (log env) = ["verification/error.png"]) /\
  (In (EvCall (PageScreenshot "verification/error.png" None) Returned) (log env) ->
   In (EvCall BrowserClose Returned) (log env) ->
   In (EvCall SyncPlaywrightExit Returned) (log env) ->
   result env = Ok tt).
Proof.
  intros Hc. by_shape env; intros H He;
    pick_event H; try (exfalso; not_in_log Hc; fail); try congruence.
  all: split; [eexists; in_log | split; [ | split]].
  all: try (intros _; eexists; in_log; fail).
  all: try (intros K; pick_event K; reflexivity).
  all: try (intros K; exfalso; not_in_log K; fail).
  all: intros K1 K2 K3; pick_event K1; pick_event K2; pick_event K3;
    reflexivity.
Qed.

Lemma step_failure_is_captured_witness :
  (exists o, In (EvCall (BuiltinPrint ("Error: " ++ Exn.str refused_exn)%string) o)
                (log env_refused)) /\
  (In (EvCall (BuiltinPrint ("Error: " ++ Exn.str refused_exn)%string) Returned)
      (log env_refused) ->
   exists o, In (EvCall (PageScreenshot "verification/error.png" None) o)
                (log env_refused)) /\
  (In (EvCall (PageScreenshot "verification/error.png" None) Returned)
      (log env_refused) ->
   files_written (log env_refused) = ["verification/error.png"]) /\
  (In (EvCall (PageScreenshot "verification/error.png" None) Returned)
      (log env_refused) ->
   In (EvCall BrowserClose Returned) (log env_refused) ->
   In (EvCall SyncPlaywrightExit Returned) (log env_refused) ->
   result env_refused = Ok tt).
Proof.
  apply (step_failure_is_captured env_refused
           (PageGoto "http://localhost:3002/") refused_exn).
  - now left.
  - cbv; tauto.
  - reflexivity.
Defined.

(** ** C3: the browser session *)

(** C3, as stated, fails when the browser starts and page creation raises:
    [browser.new_page()] is before the [try], so the [finally] is never
    entered and [browser.close()] is not reached; the exception goes to the
    caller through the exit of the Playwright context alone. *)
Lemma new_page_failure_skips_close :
  sessions_launched (log env_no_page) = 1 /\
  close_calls (log env_no_page) = 0 /\
  result env_no_page = Raise no_page_exn.
Proof. cbv. auto. Qed.

(** C3, amended.  No run launches more than one browser session, and
    [browser.close()] is never reached more often than a session was
    launched.  In every run in which the launch and the page creation return,
    whatever the steps and the error handler do afterwards, exactly one
    session is launched and the close call is reached exactly once: it is the
    last call before the Playwright context is left.  That context is left on
    every path once it was entered, which is all that releases the session
    when the page creation raises. *)
Theorem session_closed_once_page_exists (env : Env) :
  sessions_launched (log env) <= 1 /\
  close_calls (log env) <= sessions_launched (log env) /\
  (In (EvCall BrowserNewPage Returned) (log env) ->
   sessions_launched (log env) = 1 /\
   close_calls (log env) = 1 /\
   exists pre o x,
     log env = pre ++ [EvCall BrowserClose o; EvCall SyncPlaywrightExit x] /\
     sessions_launched pre = 1 /\
     close_calls pre = 0) /\
  (In (EvCall SyncPlaywrightEnter Returned) (log env) ->
   exists pre x, log env = pre ++ [EvCall SyncPlaywrightExit x]).
Proof.
  destruct (run_shape env)
    as [ e | e x | e x | cl x | k c e shot cl x Hk He
       | k c e e' cl x Hk He | k c e cl x Hk He ].
  - cbn. split; [lia | split; [lia | split; intros H; not_in_log H]].
  - cbn. split; [lia | split; [lia | split; [intros H; not_in_log H | ]]].
    intros _. now eexists [_; _], x.
  - cbn. split; [lia | split; [lia | split; [intros H; not_in_log H | ]]].
    intros _. now eexists [_; _; _], x.
  - split; [cbn; lia | split; [cbn; lia | split; intros _ ]].
    + split; [reflexivity | split; [reflexivity | ]].
      exists (setup_events ++ try_events), cl, x.
      split; [now rewrite <- app_assoc | now cbn].
    + exists (setup_events ++ try_events ++ [EvCall BrowserClose cl]), x.
      now repeat rewrite <- app_assoc.
  - split; [positions Hk; cbn; lia | ].
    split; [positions Hk; cbn; lia | split; intros _ ].
    + split; [positions Hk; reflexivity | split; [positions Hk; reflexivity | ]].
      exists (setup_events ++ firstn k try_events ++
              [ EvCall c (Raised e);
                EvCall (BuiltinPrint ("Error: " ++ Exn.str e)%string) Returned;
                EvCall (PageScreenshot error_png None) shot ]), cl, x.
      split; [now repeat rewrite <- app_assoc | positions Hk; now cbn].
    + exists (setup_events ++ firstn k try_events ++
              [ EvCall c (Raised e);
                EvCall (BuiltinPrint ("Error: " ++ Exn.str e)%string) Returned;
                EvCall (PageScreenshot error_png None) shot;
                EvCall BrowserClose cl ]), x.
      now repeat rewrite <- app_assoc.
  - split; [positions Hk; cbn; lia | ].
    split; [positions Hk; cbn; lia | split; intros _ ].
    + split; [positions Hk; reflexivity | split; [positions Hk; reflexivity | ]].
      exists (setup_events ++ firstn k try_events ++
              [ EvCall c (Raised e);
                EvCall (BuiltinPrint ("Error: " ++ Exn.str e)%string)
                  (Raised e') ]), cl, x.
      split; [now repeat rewrite <- app_assoc | positions Hk; now cbn].
    + exists (setup_events ++ firstn k try_events ++
              [ EvCall c (Raised e);
                EvCall (BuiltinPrint ("Error: " ++ Exn.str e)%string)
                  (Raised e');
                EvCall BrowserClose cl ]), x.
      now repeat rewrite <- app_assoc.
  - split; [positions Hk; cbn; lia | ].
    split; [positions Hk; cbn; lia | split; intros _ ].
    + split; [positions Hk; reflexivity | split; [positions Hk; reflexivity | ]].
      exists (setup_events ++ firstn k try_events ++ [EvCall c (Raised e)]),
        cl, x.
      split; [now repeat rewrite <- app_assoc | positions Hk; now cbn].
    + exists (setup_events ++ firstn k try_events ++
              [EvCall c (Raised e); EvCall BrowserClose cl]), x.
      now repeat rewrite <- app_assoc.
Qed.

Lemma session_closed_once_page_exists_witness :
  (sessions_launched (log env_refused) = 1 /\
   close_calls (log env_refused) = 1 /\
   exists pre o x,
     log env_refused =
       pre ++ [EvCall BrowserClose o; EvCall SyncPlaywrightExit x] /\
     sessions_launched pre = 1 /\
     close_calls pre = 0) /\
  (exists pre x, log env_no_page = pre ++ [EvCall SyncPlaywrightExit x]).
Proof.
  split.
  - apply (session_closed_once_page_exists env_refused). cbv; tauto.
  - apply (session_closed_once_page_exists env_no_page). cbv; tauto.
Defined.

(** ** C10: what [except Exception] lets through *)

(** C10.  When a call of the [try] block raises a [BaseException] that is not
    an [Exception] (a KeyboardInterrupt, say), the handler is skipped: the
    error screenshot is not requested and no file is written; the close call
    still runs, once; and an exception reaches the caller, namely the one that
    was raised whenever the two cleanup calls return. *)
Theorem base_exception_skips_handler (env : Env) (c : Call) (e : Exn.t) :
  In c try_calls ->
  In (EvCall c (Raised e)) (log env) ->
  Exn.is_Exception e = false ->
  ~ In "verification/error.png" (screenshot_calls (log env)) /\
  files_written (log env) = [] /\
  (exists o, In (EvCall BrowserClose o) (log env)) /\
  close_calls (log env) = 1 /\
  (exists e', result env = Raise e') /\
  (In (EvCall BrowserClose Returned) (log env) ->
   In (EvCall SyncPlaywrightExit Returned) (log env) ->
   result env = Raise e).
Proof.
  intros Hc. by_shape env; intros H He;
    pick_event H; try (exfalso; not_in_log Hc; fail); try congruence.
  all: split; [cbn; intuition discriminate | ].
  all: split; [reflexivity | ].
  all: split; [eexists; in_log | ].
  all: split; [reflexivity | ].
  all: split;
    [ match goal with
      | |- exists _, after_cleanup (after_cleanup _ ?a) ?b = _ =>
          destruct a, b; eexists; reflexivity
      end
    | intros K1 K2; pick_event K1; pick_event K2; reflexivity ].
Qed.

Lemma base_exception_skips_handler_witness :
  ~ In "verification/error.png" (screenshot_calls (log env_interrupted)) /\
  files_written (log env_interrupted) = [] /\
  (exists o, In (EvCall BrowserClose o) (log env_interrupted)) /\
  close_calls (log env_interrupted) = 1 /\
  (exists e', result env_interrupted = Raise e') /\
  (In (EvCall BrowserClose Returned) (log env_interrupted) ->
   In (EvCall SyncPlaywrightExit Returned) (log env_interrupted) ->
   result env_interrupted = Raise interrupt_exn).
Proof.
  apply (base_exception_skips_handler env_interrupted
           (PageWaitForSelector "video" 10000) interrupt_exn).
  - right; right; now left.
  - cbv; tauto.
  - reflexivity.
Defined.

(** ** C7: what the screenshot shows *)

(** C7, as stated, fails on the healthy run: the one screenshot, the one that
    writes running.png, is taken without [full_page], so with Playwright's
    default it shows the viewport only. *)
Lemma running_png_is_viewport_only :
  screenshots_taken playwright_full_page_default (log healthy) =
  [("verification/running.png", false)].
Proof. reflexivity. Qed.

(** C7, amended.  Every screenshot call of the script, on the success path
    and in the error handler alike, passes the path and nothing else: whether
    running.png shows the full page or the viewport is the library's default,
    not a choice of the script. *)
Theorem screenshot_mode_is_library_default
        (env : Env) (p : string) (fp : option bool) (o : Outcome) :
  In (EvCall (PageScreenshot p fp) o) (log env) ->
  fp = None /\
  (p = "verification/running.png" \/ p = "verification/error.png") /\
  forall d, captures_full_page d (PageScreenshot p fp) = d.
Proof.
  by_shape env; intros H; pick_event H; cbn; auto.
Qed.

Lemma screenshot_mode_is_library_default_witness :
  @None bool = None /\
  ("verification/running.png" = "verification/running.png" \/
   "verification/running.png" = "verification/error.png") /\
  forall d,
    captures_full_page d (PageScreenshot "verification/running.png" None) = d.
Proof.
  apply (screenshot_mode_is_library_default healthy _ _ Returned).
  cbv; tauto.
Defined.

(** ** C6: the fixed delay *)

(** C6, as stated, fails when the progress line after the selector wait
    cannot be printed: the video element has appeared, the handler captures
    error.png, and [wait_for_timeout] was never called. *)
Lemma render_line_failure_skips_delay :
  In (EvCall (PageWaitForSelector "video" 10000) Returned)
     (log (env_pipe_breaks_at "Waiting for render loop...")) /\
  (forall ms o,
     ~ In (EvCall (PageWaitForTimeout ms) o)
          (log (env_pipe_breaks_at "Waiting for render loop..."))) /\
  files_written (log (env_pipe_breaks_at "Waiting for render loop...")) =
    ["verification/error.png"].
Proof.
  cbv. split; [tauto | split; [ | reflexivity]].
  intros ms o H. repeat destruct H as [H | H]; try discriminate H. destruct H.
Qed.

(** C6, amended.  On the success path the fixed delay stands between the
    video element and the screenshot: whenever the selector wait has
    returned and the progress line after it has been printed, the very next
    call is [wait_for_timeout(3000)], made without any test of the render
    state and with no screenshot call before it; and when running.png is
    written, it is by the screenshot call that immediately follows the return
    of that delay. *)
Theorem render_wait_before_running_png (env : Env) :
  (In (EvCall (PageWaitForSelector "video" 10000) Returned) (log env) ->
   In (EvCall (BuiltinPrint "Waiting for render loop...") Returned) (log env) ->
   exists pre o post,
     log env =
       pre ++ EvCall (PageWaitForSelector "video" 10000) Returned
           :: EvCall (BuiltinPrint "Waiting for render loop...") Returned
           :: EvCall (PageWaitForTimeout 3000) o
           :: post /\
     screenshot_calls pre = [] /\
     screenshot_calls post = screenshot_calls (log env)) /\
  (In "verification/running.png" (files_written (log env)) ->
   exists pre post,
     log env =
       pre ++ EvCall (PageWaitForSelector "video" 10000) Returned
           :: EvCall (BuiltinPrint "Waiting for render loop...") Returned
           :: EvCall (PageWaitForTimeout 3000) Returned
           :: EvCall (PageScreenshot "verification/running.png" None) Returned
           :: post /\
     screenshot_calls pre = []).
Proof.
  by_shape env; split.
  all: try (intros _ H; exfalso; not_in_log H; fail).
  all: try (intros H; exfalso; split_outcomes; cbn in H; not_in_log H; fail).
  all: try (intros _ _; eexists [_; _; _; _; _; _; _; _], _, _;
            split; [reflexivity | split; reflexivity]).
  all: intros _; eexists [_; _; _; _; _; _; _; _], _;
    split; reflexivity.
Qed.

Lemma render_wait_before_running_png_witness :
  (exists pre o post,
     log healthy =
       pre ++ EvCall (PageWaitForSelector "video" 10000) Returned
           :: EvCall (BuiltinPrint "Waiting for render loop...") Returned
           :: EvCall (PageWaitForTimeout 3000) o
           :: post /\
     screenshot_calls pre = [] /\
     screenshot_calls post = screenshot_calls (log healthy)) /\
  (exists pre post,
     log healthy =
       pre ++ EvCall (PageWaitForSelector "video" 10000) Returned
           :: EvCall (BuiltinPrint "Waiting for render loop...") Returned
           :: EvCall (PageWaitForTimeout 3000) Returned
           :: EvCall (PageScreenshot "verification/running.png" None) Returned
           :: post /\
     screenshot_calls pre = []).
Proof.
  split.
  - apply (render_wait_before_running_png healthy); cbv; tauto.
  - apply (render_wait_before_running_png healthy); cbv; tauto.
Defined.

(** ** C8: how many files *)

(** C8, as stated, fails in both directions.  When the browser crashes
    during navigation the error capture raises too, and no file is written;
    when the closing [print] raises after running.png was written, the
    handler writes error.png beside it. *)
Lemma zero_files_and_both_files_occur :
  (In (EvCall (PageScreenshot "verification/error.png" None)
              (Raised crashed_exn)) (log env_crashed) /\
   files_written (log env_crashed) = [] /\
   result env_crashed = Raise crashed_exn) /\
  files_written (log (env_pipe_breaks_at "Running screenshot taken")) =
    ["verification/running.png"; "verification/error.png"].
Proof.
  cbv. split; [split; [tauto | split; reflexivity] | reflexivity].
Qed.

(** C8, amended.  In every run in which no [print] raises, the script writes
    at most one of the two files, never both: nothing, running.png alone, or
    error.png alone.  In such a run exactly one file is written precisely
    when the page was created, every failure of a step in the [try] block was
    of class Exception, and the error screenshot did not raise. *)
Theorem at_most_one_file (env : Env) :
  (forall s e, ~ In (EvCall (BuiltinPrint s) (Raised e)) (log env)) ->
  (files_written (log env) = [] \/
   files_written (log env) = ["verification/running.png"] \/
   files_written (log env) = ["verification/error.png"]) /\
  (List.length (files_written (log env)) = 1 <->
   In (EvCall BrowserNewPage Returned) (log env) /\
   (forall c e, In (EvCall c (Raised e)) (log env) -> In c try_calls ->
                Exn.is_Exception e = true) /\
   (forall e, ~ In (EvCall (PageScreenshot "verification/error.png" None)
                           (Raised e)) (log env))).
Proof.
  by_shape env; split_outcomes; intros P.
  all: try (exfalso;
            match type of P with
            | context [EvCall (BuiltinPrint ?s0) (Raised ?e0) :: _] =>
                exact (P s0 e0 ltac:(in_log))
            end).
  all: clear P; (split; [cbn; tauto | ]);
    (split; [intros H | intros (A & B & C)]).
  all: try (cbn in H; discriminate H).
  all: try reflexivity.
  all: try (exfalso; not_in_log A; fail).
  all: try (exfalso;
            match goal with
            | Hc : Exn.is_Exception ?e = false |- _ =>
                match type of B with
                | context [EvCall ?c0 (Raised e) :: _] =>
                    specialize (B c0 e ltac:(in_log) ltac:(in_try));
                    congruence
                end
            end).
  all: try (exfalso;
            match type of C with
            | context [EvCall (PageScreenshot _ None) (Raised ?e1) :: _] =>
                exact (C e1 ltac:(in_log))
            end).
  all: split; [in_log | split].
  all: try (intros ? K; not_in_log K; fail).
  all: intros ? ? K Hin; pick_event K;
    try (exfalso; not_in_log Hin; fail); assumption.
Qed.

Lemma at_most_one_file_witness :
  List.length (files_written (log env_refused)) = 1.
Proof.
  apply (at_most_one_file env_refused).
  - cbv. intros s e H. repeat destruct H as [H | H]; try discriminate H.
    destruct H.
  - cbv. split; [tauto | split].
    + intros c e H _. repeat destruct H as [H | H]; try discriminate H.
      * injection H as _ <-. reflexivity.
      * destruct H.
    + intros e H. repeat destruct H as [H | H]; try discriminate H. destruct H.
Defined.

(** ** C9: the order of the steps *)

Ltac nodup :=
  cbn [map fst];
  repeat (apply NoDup_cons; [cbn [In]; intuition discriminate | ]);
  apply NoDup_nil.

Ltac rest_shape :=
  first
    [ left; reflexivity
    | right; left; eexists; reflexivity
    | right; right; do 2 eexists; split;
      [ reflexivity
      | first [left; reflexivity | right; eexists; reflexivity] ] ].

Ltac stopped_after n :=
  exists n; eexists;
  split; [cbn; reflexivity | split; [cbn; nodup | rest_shape]].

(** C9.  In every run the operations on the page are an initial segment of
    navigate, assert title, wait for the video selector, fixed wait,
    screenshot, in that order, each begun only after the one before it has
    returned; no operation occurs twice.  The segment is followed by nothing,
    or by the error screenshot (when a [print] between the steps raised), or
    by the one step that raised, or by that step and the error screenshot. *)
Theorem steps_run_in_order (env : Env) :
  exists k rest,
    page_events (log env) =
      map (fun c => (c, Returned)) (firstn k try_calls) ++ rest /\
    NoDup (map fst (page_events (log env))) /\
    (rest = [] \/
     (exists o, rest = [(PageScreenshot "verification/error.png" None, o)]) \/
     exists c e,
       nth_error try_calls k = Some c /\
       (rest = [(c, Raised e)] \/
        exists o,
          rest = [(c, Raised e);
                  (PageScreenshot "verification/error.png" None, o)])).
Proof.
  by_shape env;
    first [ stopped_after 0 | stopped_after 1 | stopped_after 2
          | stopped_after 3 | stopped_after 4 | stopped_after 5 ].
Qed.

Ltac run_playwright :=
  unfold result, log, main, run, with_, try_except_finally, steps, on_error,
    bind, call, print, playwright;
  cbn [app].

(** ** C4: the title assertion *)

(** C4.  Against a reachable target the title assertion returns if and only
    if the title is exactly "ChromeCam Studio".  For any other title it
    raises an AssertionError; the run stops there, captures error.png and
    nothing else, and returns normally. *)
Theorem title_assertion (t : Target) :
  reachable t = true ->
  (In (EvCall (ExpectToHaveTitle "ChromeCam Studio") Returned)
      (log (playwright t)) <->
   title t = "ChromeCam Studio") /\
  (title t <> "ChromeCam Studio" ->
   (exists e, Exn.class e = Exn.AssertionError /\
              In (EvCall (ExpectToHaveTitle "ChromeCam Studio") (Raised e))
                 (log (playwright t))) /\
   map fst (page_events (log (playwright t))) =
     [ PageGoto "http://localhost:3002/";
       ExpectToHaveTitle "ChromeCam Studio";
       PageScreenshot "verification/error.png" None ] /\
   files_written (log (playwright t)) = ["verification/error.png"] /\
   result (playwright t) = Ok tt).
Proof.
  intros Hr. run_playwright. rewrite Hr. cbn [to_result].
  destruct (String.eqb_spec (title t) app_title) as [Ht | Ht]; cbn [app].
  - split; [ | intros N; now elim N].
    split; [intros _; exact Ht | intros _].
    destruct (appears t "video") as [d | ]; [destruct (d <=? 10000)%Z | ];
      cbn; tauto.
  - split.
    + split; [intros H; exfalso; cbn in H; not_in_log H | intros E; now elim Ht].
    + intros _. split; [ | cbn; auto].
      eexists. split; [ | cbn; do 6 right; left; reflexivity]. reflexivity.
Qed.

Lemma title_assertion_witness :
  (exists e, Exn.class e = Exn.AssertionError /\
             In (EvCall (ExpectToHaveTitle "ChromeCam Studio") (Raised e))
                (log (playwright other_app))) /\
  map fst (page_events (log (playwright other_app))) =
    [ PageGoto "http://localhost:3002/";
      ExpectToHaveTitle "ChromeCam Studio";
      PageScreenshot "verification/error.png" None ] /\
  files_written (log (playwright other_app)) = ["verification/error.png"] /\
  result (playwright other_app) = Ok tt.
Proof.
  apply (title_assertion other_app); [reflexivity | discriminate].
Defined.

(** ** C5: the wait for the video element *)

(** C5.  Against a reachable target with the right title, the script waits
    for the selector "video" with a bound of 10000 ms: the wait returns if and
    only if a matching element appears within the bound.  Otherwise it raises
    a TimeoutError; the run stops there, captures error.png and nothing else,
    and returns normally. *)
Theorem video_wait (t : Target) :
  reachable t = true ->
  title t = "ChromeCam Studio" ->
  (In (EvCall (PageWaitForSelector "video" 10000) Returned)
      (log (playwright t)) <->
   exists d, appears t "video" = Some d /\ (d <= 10000)%Z) /\
  (~ (exists d, appears t "video" = Some d /\ (d <= 10000)%Z) ->
   (exists e, Exn.class e = Exn.TimeoutError /\
              In (EvCall (PageWaitForSelector "video" 10000) (Raised e))
                 (log (playwright t))) /\
   map fst (page_events (log (playwright t))) =
     [ PageGoto "http://localhost:3002/";
       ExpectToHaveTitle "ChromeCam Studio";
       PageWaitForSelector "video" 10000;
       PageScreenshot "verification/error.png" None ] /\
   files_written (log (playwright t)) = ["verification/error.png"] /\
   result (playwright t) = Ok tt).
Proof.
  intros Hr Ht. run_playwright. rewrite Hr, Ht. cbn [to_result app].
  change (String.eqb "ChromeCam Studio" app_title) with true. cbn iota.
  destruct (appears t "video") as [d | ];
    [destruct (Z.leb_spec d 10000) as [Hd | Hd] | ]; cbn [app].
  - split.
    + split; [intros _; now exists d | intros _; cbn; tauto].
    + intros N. elim N. now exists d.
  - split.
    + split; [intros H; exfalso; cbn in H; not_in_log H | ].
      intros (d' & E & Hd'). injection E as <-. lia.
    + intros _. split; [ | cbn; auto].
      eexists. split; [ | cbn; do 8 right; left; reflexivity]. reflexivity.
  - split.
    + split; [intros H; exfalso; cbn in H; not_in_log H | ].
      intros (d' & E & _). discriminate E.
    + intros _. split; [ | cbn; auto].
      eexists. split; [ | cbn; do 8 right; left; reflexivity]. reflexivity.
Qed.

Lemma video_wait_witness :
  (exists e, Exn.class e = Exn.TimeoutError /\
             In (EvCall (PageWaitForSelector "video" 10000) (Raised e))
                (log (playwright no_video_app))) /\
  map fst (page_events (log (playwright no_video_app))) =
    [ PageGoto "http://localhost:3002/";
      ExpectToHaveTitle "ChromeCam Studio";
      PageWaitForSelector "video" 10000;
      PageScreenshot "verification/error.png" None ] /\
  files_written (log (playwright no_video_app)) = ["verification/error.png"] /\
  result (playwright no_video_app) = Ok tt.
Proof.
  apply (video_wait no_video_app); [reflexivity | reflexivity | ].
  intros (d & E & _). discriminate E.
Defined.


(** * Further properties of [run] *)

(** ** What the two files are evidence of *)

(** A run that wrote running.png went through every step: each call of the
    [try] block returned and the four progress lines were printed.  If the
    error screenshot was requested all the same, it is because the closing
    [print] raised an [Exception]. *)
Theorem running_png_means_every_step_returned (env : Env) :
  In "verification/running.png" (files_written (log env)) ->
  (forall c, In c try_calls -> In (EvCall c Returned) (log env)) /\
  (forall s, In s progress_lines -> In s (stdout (log env))) /\
  (In "verification/error.png" (screenshot_calls (log env)) ->
   exists e,
     Exn.is_Exception e = true /\
     In (EvCall (BuiltinPrint "Running screenshot taken") (Raised e)) (log env)).
Proof.
  by_shape env; split_outcomes; intros H; cbn in H;
    try (exfalso; not_in_log H; fail).
  all: split; [ | split].
  all: try (intros c Hc; unfold try_calls in Hc; cbn [In] in Hc;
            repeat destruct Hc as [<- | Hc]; try destruct Hc; in_log).
  all: try (intros s Hs; unfold progress_lines in Hs; cbn [In] in Hs;
            repeat destruct Hs as [<- | Hs]; try destruct Hs; cbn; tauto).
  all: try (intros K; exfalso; cbn in K; not_in_log K; fail).
  all: intros _; eexists; split; [eassumption | in_log].
Qed.

Lemma running_png_means_every_step_returned_witness :
  (forall c, In c try_calls -> In (EvCall c Returned) (log healthy)) /\
  (forall s, In s progress_lines -> In s (stdout (log healthy))) /\
  (In "verification/error.png" (screenshot_calls (log healthy)) ->
   exists e,
     Exn.is_Exception e = true /\
     In (EvCall (BuiltinPrint "Running screenshot taken") (Raised e))
        (log healthy)).
Proof.
  apply (running_png_means_every_step_returned healthy). cbv; tauto.
Defined.

(** A run that wrote error.png had something fail inside the [try]: a step
    or a [print] of the block raised an [Exception], and its message was
    printed after "Error: ".  running.png exists beside it exactly when what
    raised was the closing [print]. *)
Theorem error_png_means_a_step_raised (env : Env) :
  In "verification/error.png" (files_written (log env)) ->
  exists c e,
    In c try_block_calls /\
    In (EvCall c (Raised e)) (log env) /\
    Exn.is_Exception e = true /\
    In ("Error: " ++ Exn.str e)%string (stdout (log env)) /\
    (In "verification/running.png" (files_written (log env)) <->
     c = BuiltinPrint "Running screenshot taken").
Proof.
  by_shape env; split_outcomes; intros H; cbn in H;
    try (exfalso; not_in_log H; fail).
  all: do 2 eexists; split; [ | split; [in_log | split; [eassumption | split]]].
  all: try (unfold try_block_calls; in_log; fail).
  all: try (cbn [stdout In]; tauto).
  all: clear H; cbn; split; intros K;
    first [ reflexivity | discriminate K | tauto | (exfalso; not_in_log K) ].
Qed.

Lemma error_png_means_a_step_raised_witness :
  exists c e,
    In c try_block_calls /\
    In (EvCall c (Raised e)) (log env_refused) /\
    Exn.is_Exception e = true /\
    In ("Error: " ++ Exn.str e)%string (stdout (log env_refused)) /\
    (In "verification/running.png" (files_written (log env_refused)) <->
     c = BuiltinPrint "Running screenshot taken").
Proof.
  apply (error_png_means_a_step_raised env_refused). cbv; tauto.
Defined.

(** ** Standard output *)

(** The closing line "Running screenshot taken" is printed only after
    running.png was written, and nothing is printed but the four progress
    lines, that closing line, and "Error: " followed by the message of an
    [Exception] that a call of the [try] block raised. *)
Theorem stdout_is_truthful (env : Env) :
  (In "Running screenshot taken" (stdout (log env)) ->
   In "verification/running.png" (files_written (log env))) /\
  (forall s, In s (stdout (log env)) ->
     In s progress_lines \/
     s = "Running screenshot taken" \/
     exists c e,
       In c try_block_calls /\ In (EvCall c (Raised e)) (log env) /\
       Exn.is_Exception e = true /\ s = ("Error: " ++ Exn.str e)%string).
Proof.
  by_shape env; split_outcomes; split.
  all: try (cbn; intros H; (tauto || (exfalso; not_in_log H)); fail).
  all: intros s H; cbn [stdout In] in H;
    repeat destruct H as [<- | H]; try destruct H.
  all: try (left; unfold progress_lines; in_log; fail).
  all: try (right; left; reflexivity).
  all: right; right; do 2 eexists;
    (split; [ | split; [in_log | split; [eassumption | reflexivity]]]);
    unfold try_block_calls; in_log.
Qed.

Lemma stdout_is_truthful_witness :
  In "verification/running.png" (files_written (log healthy)).
Proof.
  apply (stdout_is_truthful healthy). cbv; tauto.
Defined.

(** ** Both files *)

(** Whatever happens, the files written are nothing, running.png alone,
    error.png alone, or running.png followed by error.png; each is written at
    most once.  Both are written only when all five steps returned and the
    closing [print] then raised an [Exception]. *)
Theorem both_files_only_after_closing_print_raised (env : Env) :
  (files_written (log env) = [] \/
   files_written (log env) = ["verification/running.png"] \/
   files_written (log env) = ["verification/error.png"] \/
   files_written (log env) =
     ["verification/running.png"; "verification/error.png"]) /\
  (In "verification/running.png" (files_written (log env)) ->
   In "verification/error.png" (files_written (log env)) ->
   (forall c, In c try_calls -> In (EvCall c Returned) (log env)) /\
   exists e,
     Exn.is_Exception e = true /\
     In (EvCall (BuiltinPrint "Running screenshot taken") (Raised e))
        (log env)).
Proof.
  by_shape env; split_outcomes; (split; [cbn; tauto | ]);
    intros H1 H2; cbn in H1, H2.
  all: try (exfalso; not_in_log H1; fail).
  all: try (exfalso; not_in_log H2; fail).
  all: split; [ | eexists; split; [eassumption | in_log]].
  all: intros c Hc; unfold try_calls in Hc; cbn [In] in Hc;
    repeat destruct Hc as [<- | Hc]; try destruct Hc; in_log.
Qed.

Lemma both_files_only_after_closing_print_raised_witness :
  (forall c, In c try_calls ->
     In (EvCall c Returned)
        (log (env_pipe_breaks_at "Running screenshot taken"))) /\
  exists e,
    Exn.is_Exception e = true /\
    In (EvCall (BuiltinPrint "Running screenshot taken") (Raised e))
       (log (env_pipe_breaks_at "Running screenshot taken")).
Proof.
  apply (both_files_only_after_closing_print_raised
           (env_pipe_breaks_at "Running screenshot taken"));
    cbv; tauto.
Defined.

(** ** A handler that cannot report *)

(** When the handler's own [print] of the error line raises, the error
    screenshot is not requested, the browser is still closed, and an
    exception reaches the caller: the one from the [print] whenever the two
    cleanup calls return. *)
Theorem unreported_failure_reaches_caller (env : Env) (e e' : Exn.t) :
  In (EvCall (BuiltinPrint ("Error: " ++ Exn.str e)%string) (Raised e'))
     (log env) ->
  ~ In "verification/error.png" (screenshot_calls (log env)) /\
  close_calls (log env) = 1 /\
  (exists e'', result env = Raise e'') /\
  (In (EvCall BrowserClose Returned) (log env) ->
   In (EvCall SyncPlaywrightExit Returned) (log env) ->
   result env = Raise e').
Proof.
  by_shape env; intros H; pick_event H.
  all: split; [cbn; intuition discriminate | split; [reflexivity | split]].
  all: try match goal with
       | |- exists _, after_cleanup (after_cleanup _ ?a) ?b = _ =>
           destruct a, b; eexists; reflexivity
       end.
  all: intros K1 K2; pick_event K1; pick_event K2; reflexivity.
Qed.

Lemma unreported_failure_reaches_caller_witness :
  ~ In "verification/error.png" (screenshot_calls (log env_unreported)) /\
  close_calls (log env_unreported) = 1 /\
  (exists e'', result env_unreported = Raise e'') /\
  (In (EvCall BrowserClose Returned) (log env_unreported) ->
   In (EvCall SyncPlaywrightExit Returned) (log env_unreported) ->
   result env_unreported = Raise broken_pipe_exn).
Proof.
  apply (unreported_failure_reaches_caller env_unreported wrong_title_exn
           broken_pipe_exn).
  cbv; tauto.
Defined.

(** ** Failures before the [try] *)

(** When entering the Playwright context, launching the browser or opening
    the page raises, the script does nothing visible: no page operation, no
    line of output, no file, no close call; an exception reaches the
    caller. *)
Theorem setup_failure_is_silent (env : Env) (c : Call) (e : Exn.t) :
  In c setup_calls ->
  In (EvCall c (Raised e)) (log env) ->
  page_events (log env) = [] /\
  stdout (log env) = [] /\
  files_written (log env) = [] /\
  close_calls (log env) = 0 /\
  exists e', result env = Raise e'.
Proof.
  intros Hc. by_shape env; intros H; pick_event H;
    try (exfalso; unfold setup_calls in Hc; not_in_log Hc; fail).
  all: repeat (split; [reflexivity | ]).
  all: try (eexists; reflexivity).
  all: match goal with
       | |- exists _, after_cleanup _ ?a = _ => destruct a; eexists; reflexivity
       end.
Qed.

Lemma setup_failure_is_silent_witness :
  page_events (log env_no_page) = [] /\
  stdout (log env_no_page) = [] /\
  files_written (log env_no_page) = [] /\
  close_calls (log env_no_page) = 0 /\
  exists e', result env_no_page = Raise e'.
Proof.
  apply (setup_failure_is_silent env_no_page BrowserNewPage no_page_exn).
  - right; right; now left.
  - cbv; tauto.
Defined.

(** ** What the caller sees *)

(** Try every call that raised in the log mentioned by [H]. *)
Ltac refute H :=
  match type of H with
  | context [EvCall ?c0 (Raised ?e0) :: _] =>
      let K1 := fresh in
      let K2 := fresh in
      destruct (H c0 e0 ltac:(in_log)) as [K1 K2];
      solve [unfold try_block_calls in K1; not_in_log K1 | congruence]
  end.

(** [run] returns normally exactly when nothing raised except, possibly, a
    call of the [try] block, a step or a [print], raising an [Exception]: a
    normal return does not tell a passed verification from a failed one. *)
Theorem returns_normally_iff (env : Env) :
  result env = Ok tt <->
  (forall c e, In (EvCall c (Raised e)) (log env) ->
               In c try_block_calls /\ Exn.is_Exception e = true).
Proof.
  by_shape env; split_outcomes; cbn [after_cleanup to_result];
    (split; [intros H | intros H]).
  all: try discriminate H.
  all: try reflexivity.
  all: try (exfalso; refute H; fail).
  all: intros ? ? K; pick_event K;
    (split; [unfold try_block_calls; in_log | assumption]).
Qed.

(** When [run] raises, the caller gets the exception of the most recent call
    that raised, and that call is not a step whose failure the handler
    caught: a failing cleanup masks whatever failed before it. *)
Theorem caller_sees_last_failure (env : Env) (e : Exn.t) :
  result env = Raise e ->
  exists c,
    last_raised (log env) = Some (c, e) /\
    ~ (In c try_calls /\ Exn.is_Exception e = true).
Proof.
  by_shape env; split_outcomes; cbn [after_cleanup to_result]; intros H;
    try discriminate H; injection H as <-.
  all: eexists; split; [reflexivity | ].
  all: intros [K1 K2]; first [congruence | not_in_log K1].
Qed.

Lemma caller_sees_last_failure_witness :
  exists c,
    last_raised (log env_crashed) = Some (c, crashed_exn) /\
    ~ (In c try_calls /\ Exn.is_Exception crashed_exn = true).
Proof.
  apply (caller_sees_last_failure env_crashed crashed_exn). reflexivity.
Defined.

(** ** The calls a run can make *)

(** Whatever the environment answers, [run] only ever makes calls from its
    ten call sites, with the arguments written there, and makes none of them
    twice: it never navigates elsewhere, never launches a second browser,
    never retries. *)
Theorem calls_come_from_the_script (env : Env) :
  (forall c, In c (calls_made (log env)) -> In c script_calls) /\
  NoDup (calls_made (log env)).
Proof.
  by_shape env; split.
  all: try (cbn [calls_made];
            repeat (apply NoDup_cons; [cbn [In]; intuition discriminate | ]);
            apply NoDup_nil).
  all: intros c H; cbn [calls_made In] in H;
    repeat destruct H as [<- | H]; try destruct H;
    unfold script_calls, setup_calls, try_calls; in_log.
Qed.

Lemma returns_normally_iff_witness : result env_refused = Ok tt.
Proof.
  apply (returns_normally_iff env_refused). cbv.
  intros c e H. repeat destruct H as [H | H]; try discriminate H.
  - injection H as <- <-. split; [right; now left | reflexivity].
  - destruct H.
Defined.

(** ** A browser that stays up *)

Section Answered.

Variable env : Env.

Lemma call_keeps_answered (c : Call) : keeps_answered env (call env c).
Proof.
  intros l A c' o H. rewrite call_eq in H. cbn [snd] in H.
  apply in_app_or in H. destruct H as [H | [H | []]]; [now apply A | ].
  injection H as <- <-. now exists l.
Qed.

Lemma print_keeps_answered (s : string) : keeps_answered env (print env s).
Proof. apply call_keeps_answered. Qed.

Lemma bind_keeps_answered (m k : M unit) :
  keeps_answered env m -> keeps_answered env k ->
  keeps_answered env (m ;; k).
Proof.
  intros Hm Hk l A. unfold bind. specialize (Hm l A).
  destruct (m l) as [[[] | e] l1]; cbn [snd] in *; [now apply Hk | exact Hm].
Qed.

Lemma try_except_finally_keeps_answered
      (body : M unit) (handler : Exn.t -> M unit) (fin : M unit) :
  keeps_answered env body ->
  (forall e, keeps_answered env (handler e)) ->
  keeps_answered env fin ->
  keeps_answered env (try_except_finally body handler fin).
Proof.
  intros Hb Hh Hf l A. unfold try_except_finally. specialize (Hb l A).
  destruct (body l) as [[[] | e] l1]; cbn [snd] in Hb.
  - specialize (Hf l1 Hb). now destruct (fin l1) as [[[] | e'] l2].
  - destruct (Exn.is_Exception e).
    + specialize (Hh e l1 Hb). destruct (handler e l1) as [r l2].
      cbn [snd] in Hh. specialize (Hf l2 Hh).
      now destruct (fin l2) as [[[] | e'] l3].
    + specialize (Hf l1 Hb). now destruct (fin l1) as [[[] | e'] l2].
Qed.

Lemma with_keeps_answered (enter exit body : M unit) :
  keeps_answered env enter -> keeps_answered env exit ->
  keeps_answered env body ->
  keeps_answered env (with_ enter exit body).
Proof.
  intros He Hx Hb l A. unfold with_. specialize (He l A).
  destruct (enter l) as [[[] | e] l1]; cbn [snd] in He; [ | exact He].
  specialize (Hb l1 He). destruct (body l1) as [r l2]. cbn [snd] in Hb.
  specialize (Hx l2 Hb). now destruct (exit l2) as [[[] | e'] l3].
Qed.

Lemma log_answered : answered env (log env).
Proof.
  assert (K : keeps_answered env (run env)).
  { unfold run, steps, on_error.
    repeat first
      [ apply call_keeps_answered
      | apply print_keeps_answered
      | apply bind_keeps_answered
      | apply with_keeps_answered
      | apply try_except_finally_keeps_answered
      | intros ? ]. }
  apply K. intros c o [].
Qed.

End Answered.

Ltac impossible A H1 H2 :=
  match type of A with
  | context [EvCall ?c0 (Raised ?e0) :: _] =>
      let l' := fresh in
      let E := fresh in
      destruct (A c0 (Raised e0) ltac:(in_log)) as [l' E];
      solve [ rewrite H1 in E by reflexivity; discriminate E
            | apply H2 in E; congruence ]
  end.

(** When the browser itself never fails (only navigation, the title
    assertion and the selector wait can raise, and they raise [Exception]s),
    [run] always returns normally and always leaves exactly one of the two
    files: which one is the only trace of the verdict. *)
Theorem steady_browser_always_one_file (env : Env) :
  (forall l c, looks_at_target c = false -> env l c = Returned) ->
  (forall l c e, env l c = Raised e -> Exn.is_Exception e = true) ->
  result env = Ok tt /\
  (files_written (log env) = ["verification/running.png"] \/
   files_written (log env) = ["verification/error.png"]).
Proof.
  intros H1 H2. pose proof (log_answered env) as A. revert A.
  by_shape env; split_outcomes; intros A.
  all: try (exfalso; impossible A H1 H2; fail).
  all: split; [reflexivity | cbn; tauto].
Qed.

Lemma steady_browser_always_one_file_witness :
  result env_refused = Ok tt /\
  (files_written (log env_refused) = ["verification/running.png"] \/
   files_written (log env_refused) = ["verification/error.png"]).
Proof.
  apply (steady_browser_always_one_file env_refused).
  - intros l c H. destruct c; cbn in *; first [reflexivity | discriminate H].
  - intros l c e H. destruct c; cbn in H; try discriminate H.
    injection H as <-. reflexivity.
Defined.
